(** * jules-scratch/verification/verify_transcription.py

    A shallow embedding of the verification script and of the part of the
    Python run time it relies on (exceptions, the [with] statement, the
    exit status of the interpreter), and the properties of the script
    derived from it.

    The script drives the Playwright library.  The library is not part of
    the repository: every call into it is an interaction with an outside
    world that may return or raise.  The embedding therefore takes the
    library as an interface ([Playwright]) over an arbitrary library state
    and proves the properties of the script for every implementation of
    that interface. *)

From stdpp Require Import base option strings list gmap.

(** ** Python values the script handles *)

(** The objects the library hands out ([playwright], [browser], [page]) are
    opaque to the script: it only passes them back as receivers. *)
Definition handle := nat.

(** [bytes], the value of [page.screenshot(...)]. *)
Definition bytes := list Byte.byte.

(** Modelled from the spec: the classes of the exceptions the library
    raises are not named in the source; the taxonomy is the one of section
    7 of the specification, with [OtherError] for any other class. *)
Inductive error : Type :=
  | LaunchError
  | PageCreationError
  | NavigationError
  | ElementNotFoundError
  | ElementNotInteractableError
  | TimeoutError
  | CaptureError
  | OtherError (name : string).

(** An exception object: its class and its [__context__], the exception
    that was being handled when this one was raised, if there was one. *)
Inductive exn : Type :=
  | Exn (kind : error)
  | ExnDuring (kind : error) (context : exn).

Definition kind_of (e : exn) : error :=
  match e with Exn k | ExnDuring k _ => k end.

(** The exceptions of a traceback: [e], then its [__context__] chain. *)
Fixpoint chain (e : exn) : list exn :=
  match e with
  | Exn _ => [e]
  | ExnDuring _ c => e :: chain c
  end.

#[global] Instance error_eq_dec : EqDecision error.
Proof. solve_decision. Defined.

#[global] Instance exn_eq_dec : EqDecision exn.
Proof. solve_decision. Defined.

(** [e] with [handled] below the last exception of its context chain. *)
Fixpoint chained_to (e handled : exn) : exn :=
  match e with
  | Exn k => ExnDuring k handled
  | ExnDuring k c => ExnDuring k (chained_to c handled)
  end.

(** Implicit chaining: an exception raised while [handled] is being
    handled has [handled] in its context chain.  The exception keeps its
    class and the context it has; one that is [handled] itself, raised
    again, or that has it in its chain already, is left as it is. *)
Definition set_context (e handled : exn) : exn :=
  if decide (handled ∈ chain e) then e else chained_to e handled.

(** The result of evaluating a call. *)
Inductive outcome (A : Type) : Type :=
  | Returned (a : A)
  | Raised (e : exn).
Arguments Returned {A} a.
Arguments Raised {A} e.

Definition raised {A} (r : outcome A) : option exn :=
  match r with Returned _ => None | Raised e => Some e end.

(** ** The library interface *)

(** The calls the script makes, with their receiver and arguments.
    [Enter] and [Exit] are the context-manager protocol of the object
    [sync_playwright()] returns; [Exit] receives the exception that left
    the body, if any. *)
Inductive call : Type :=
  | Enter
  | Exit (exc : option exn)
  | Launch (playwright : handle)
  | NewPage (browser : handle)
  | Goto (page : handle) (url : string)
  | Click (page : handle) (selector : string)
  | WaitForSelector (page : handle) (selector : string)
  | Screenshot (page : handle) (path : string)
  | Close (browser : handle).

(** The method called and the arguments written in the call, without the
    receiver (a run-time object). *)
Definition signature (c : call) : string * list string :=
  match c with
  | Enter => ("__enter__", [])
  | Exit _ => ("__exit__", [])
  | Launch _ => ("launch", [])
  | NewPage _ => ("new_page", [])
  | Goto _ url => ("goto", [url])
  | Click _ selector => ("click", [selector])
  | WaitForSelector _ selector => ("wait_for_selector", [selector])
  | Screenshot _ path => ("screenshot", [path])
  | Close _ => ("close", [])
  end.

(** The calls of the context-manager protocol, as opposed to the browser
    operations of [run]. *)
Definition is_protocol (c : call) : bool :=
  match c with Enter | Exit _ => true | _ => false end.

(** Playwright over a library state [L] (driver, browser processes, the
    pages and whatever they load).  Each method returns or raises (the
    library bounds its waits by a time-out), and moves the library to a
    new state.  [__exit__] of the context manager is declared [-> None]:
    it has no value that could swallow an exception. *)
Class Playwright (L : Type) : Type := {
  pw_enter : L → outcome handle * L;
  pw_exit : option exn → L → outcome () * L;
  pw_launch : handle → L → outcome handle * L;
  pw_new_page : handle → L → outcome handle * L;
  pw_goto : handle → string → L → outcome () * L;
  pw_click : handle → string → L → outcome () * L;
  pw_wait_for_selector : handle → string → L → outcome () * L;
  pw_screenshot : handle → string → L → outcome bytes * L;
  pw_close : handle → L → outcome () * L
}.

(** ** The process *)

(** What a call did: the call and the exception it raised, if any. *)
Record event : Type := Event {
  ev_call : call;
  ev_raised : option exn
}.

(** The state of the process the script runs in: its command line and
    environment, the files under its working directory (by relative
    path), and the state of the library. *)
Record proc (L : Type) : Type := Proc {
  argv : list string;
  environ : gmap string string;
  fs : gmap string bytes;
  lib : L
}.
Arguments Proc {L} _ _ _ _.
Arguments argv {L} _.
Arguments environ {L} _.
Arguments fs {L} _.
Arguments lib {L} _.

(** A computation: from a process state to an outcome, the state it
    leaves and the calls it made, in order. *)
Definition M (L A : Type) : Type := proc L → outcome A * proc L * list event.

Definition M_ret {L A} (a : A) : M L A := λ s, (Returned a, s, []).

(** Sequencing: an exception in [m] skips [k]. *)
Definition M_bind {L A B} (k : A → M L B) (m : M L A) : M L B := λ s,
  match m s with
  | (Returned a, s1, t1) =>
      match k a s1 with (r, s2, t2) => (r, s2, t1 ++ t2) end
  | (Raised e, s1, t1) => (Raised e, s1, t1)
  end.

#[global] Instance M_mret {L} : MRet (M L) := @M_ret L.
#[global] Instance M_mbind {L} : MBind (M L) := @M_bind L.

Section Script.
Context {L : Type} `{!Playwright L}.

(** A call into the library: the library state moves, the call is
    recorded with its outcome. *)
Definition invoke {A} (c : call) (f : L → outcome A * L) : M L A := λ s,
  match f (lib s) with
  | (r, l) => (r, Proc (argv s) (environ s) (fs s) l, [Event c (raised r)])
  end.

(** The library saving an image under [path]. *)
Definition write_file (path : string) (data : bytes) : M L () := λ s,
  (Returned (), Proc (argv s) (environ s) (<[path := data]> (fs s)) (lib s), []).

Definition chromium_launch (playwright : handle) : M L handle :=
  invoke (Launch playwright) (pw_launch playwright).
Definition new_page (browser : handle) : M L handle :=
  invoke (NewPage browser) (pw_new_page browser).
Definition goto (page : handle) (url : string) : M L () :=
  invoke (Goto page url) (pw_goto page url).
Definition click (page : handle) (selector : string) : M L () :=
  invoke (Click page selector) (pw_click page selector).
Definition wait_for_selector (page : handle) (selector : string) : M L () :=
  invoke (WaitForSelector page selector) (pw_wait_for_selector page selector).
(** [page.screenshot(path=...)] returns the image and saves it. *)
Definition screenshot (page : handle) (path : string) : M L bytes :=
  data ← invoke (Screenshot page path) (pw_screenshot page path);
  write_file path data;;
  mret data.
Definition close (browser : handle) : M L () :=
  invoke (Close browser) (pw_close browser).

(** [with sync_playwright() as v: body v].  When [__enter__] raises,
    nothing else runs.  Otherwise [__exit__] runs once, after the body,
    whether the body returned or raised; it returns [None], so an
    exception of the body is raised again after it; an exception of
    [__exit__] itself replaces it and keeps it as context. *)
Definition with_sync_playwright {A} (body : handle → M L A) : M L () := λ s,
  match invoke Enter pw_enter s with
  | (Raised e, s1, t1) => (Raised e, s1, t1)
  | (Returned v, s1, t1) =>
      match body v s1 with
      | (Returned _, s2, t2) =>
          match invoke (Exit None) (pw_exit None) s2 with
          | (r, s3, t3) => (r, s3, t1 ++ t2 ++ t3)
          end
      | (Raised e, s2, t2) =>
          match invoke (Exit (Some e)) (pw_exit (Some e)) s2 with
          | (Returned _, s3, t3) => (Raised e, s3, t1 ++ t2 ++ t3)
          | (Raised e', s3, t3) =>
              (Raised (set_context e' e), s3, t1 ++ t2 ++ t3)
          end
      end
  end.

(** *** The source *)

Definition run (playwright : handle) : M L () :=
  browser ← chromium_launch playwright;
  page ← new_page browser;
  goto page "http://localhost:5173/";;
  click page "button";;
  wait_for_selector page "textarea:not(:empty)";;
  screenshot page "jules-scratch/verification/verification.png";;
  close browser.

Definition script : M L () :=
  with_sync_playwright (λ playwright, run playwright).

(** *** The interpreter *)

(** What is left of a finished process. *)
Record completed : Type := Completed {
  uncaught : option exn;
  final : proc L;
  trace : list event
}.

(** Running a module as a program: an exception that leaves it is
    uncaught. *)
Definition python (main : M L ()) (s : proc L) : completed :=
  match main s with (r, s', t) => Completed (raised r) s' t end.

(** The interpreter exits with 0 at the end of the module and with 1 on
    an uncaught exception. *)
Definition exit_status (r : completed) : Z :=
  match uncaught r with None => 0 | Some _ => 1 end.

End Script.

(** ** Reading a trace *)

Definition calls (t : list event) : list call := ev_call <$> t.

(** The browser operations of a trace: what [run] called. *)
Definition steps (t : list event) : list call :=
  List.filter (λ c, negb (is_protocol c)) (calls t).

(** The method an event called, and the methods of a trace. *)
Definition method (ev : event) : string := (signature (ev_call ev)).1.

Definition methods (t : list event) : list string := method <$> t.

(** The method [m] was called and returned. *)
Definition returned_from (m : string) (t : list event) : Prop :=
  ∃ ev, ev ∈ t ∧ method ev = m ∧ ev_raised ev = None.

(** Every call of the trace returned. *)
Definition all_returned (t : list event) : Prop :=
  Forall (λ ev, ev_raised ev = None) t.

(** What the library does when [c] is called in state [l]: the exception
    raised, if any, and the state it leaves. *)
Definition perform {L} `{!Playwright L} (c : call) (l : L) : option exn * L :=
  match c with
  | Enter => let (r, l') := pw_enter l in (raised r, l')
  | Exit exc => let (r, l') := pw_exit exc l in (raised r, l')
  | Launch playwright => let (r, l') := pw_launch playwright l in (raised r, l')
  | NewPage browser => let (r, l') := pw_new_page browser l in (raised r, l')
  | Goto page url => let (r, l') := pw_goto page url l in (raised r, l')
  | Click page selector =>
      let (r, l') := pw_click page selector l in (raised r, l')
  | WaitForSelector page selector =>
      let (r, l') := pw_wait_for_selector page selector l in (raised r, l')
  | Screenshot page path =>
      let (r, l') := pw_screenshot page path l in (raised r, l')
  | Close browser => let (r, l') := pw_close browser l in (raised r, l')
  end.

(** [performed l t l']: the events of [t] are calls the library performed
    one after the other, the first in state [l], each of the others in the
    state the one before it left, the last leaving [l'], with the outcomes
    [t] records. *)
Inductive performed {L} `{!Playwright L} : L → list event → L → Prop :=
  | performed_nil l : performed l [] l
  | performed_cons l c x l' t l'' :
      perform c l = (x, l') →
      performed l' t l'' →
      performed l (Event c x :: t) l''.

(** The seven calls of [run] all return: [launch] on [playwright] in the
    library state [l] gives [browser], [new_page] on it gives [page], the
    three calls on the page return, [screenshot] gives [image], [close]
    returns and leaves [l'], each call made in the state the one before
    left. *)
Definition run_returns {L} `{!Playwright L} (playwright : handle) (l : L)
    (browser page : handle) (image : bytes) (l' : L) : Prop :=
  ∃ l1 l2 l3 l4 l5 l6,
    pw_launch playwright l = (Returned browser, l1) ∧
    pw_new_page browser l1 = (Returned page, l2) ∧
    pw_goto page "http://localhost:5173/" l2 = (Returned (), l3) ∧
    pw_click page "button" l3 = (Returned (), l4) ∧
    pw_wait_for_selector page "textarea:not(:empty)" l4 = (Returned (), l5) ∧
    pw_screenshot page "jules-scratch/verification/verification.png" l5
      = (Returned image, l6) ∧
    pw_close browser l6 = (Returned (), l').

(** Every call of the script returns, from the library state [l]: the
    context is entered, the calls of [run] return with [image] for the
    screenshot, and the context is left, in [l']. *)
Definition script_returns {L} `{!Playwright L} (l : L) (image : bytes)
    (l' : L) : Prop :=
  ∃ playwright l0 browser page l7,
    pw_enter l = (Returned playwright, l0) ∧
    run_returns playwright l0 browser page image l7 ∧
    pw_exit None l7 = (Returned (), l').

(** The exceptions raised in a trace, in order. *)
Definition raised_in (t : list event) : list exn := omap ev_raised t.

(** The page a call is made on, for the methods of a page. *)
Definition page_of (c : call) : option handle :=
  match c with
  | Goto p _ | Click p _ | WaitForSelector p _ | Screenshot p _ => Some p
  | _ => None
  end.

(** The calls of [run] on the objects [playwright], [browser] and [page],
    as the source writes them. *)
Definition session (playwright browser page : handle) : list call :=
  [ Launch playwright;
    NewPage browser;
    Goto page "http://localhost:5173/";
    Click page "button";
    WaitForSelector page "textarea:not(:empty)";
    Screenshot page "jules-scratch/verification/verification.png";
    Close browser ].

(** The seven calls of [run] as the source writes them. *)
Definition run_steps : list (string * list string) :=
  [ ("launch", []);
    ("new_page", []);
    ("goto", ["http://localhost:5173/"]);
    ("click", ["button"]);
    ("wait_for_selector", ["textarea:not(:empty)"]);
    ("screenshot", ["jules-scratch/verification/verification.png"]);
    ("close", []) ].

Definition screenshot_path : string :=
  "jules-scratch/verification/verification.png".

(** ** Libraries to run the script against *)

(** A library that raises, from the methods listed in [faults], the
    error listed, and returns from every other call.  Its state counts the
    screenshots asked for, and every screenshot differs from the one
    before. *)
Module Stub.

Definition png (n : nat) : bytes :=
  [Byte.x89; Byte.x50; Byte.x4e; Byte.x47] ++ replicate n Byte.x2e.

Definition answer {A} (faults : gmap string error) (m : string) (a : A)
    (l : nat) : outcome A * nat :=
  match faults !! m with
  | Some e => (Raised (Exn e), l)
  | None => (Returned a, l)
  end.

Definition library (faults : gmap string error) : Playwright nat := {|
  pw_enter := answer faults "__enter__" 1;
  pw_exit := λ _, answer faults "__exit__" ();
  pw_launch := λ _, answer faults "launch" 2;
  pw_new_page := λ _, answer faults "new_page" 3;
  pw_goto := λ _ _, answer faults "goto" ();
  pw_click := λ _ _, answer faults "click" ();
  pw_wait_for_selector := λ _ _, answer faults "wait_for_selector" ();
  pw_screenshot := λ _ _ l, answer faults "screenshot" (png l) (S l);
  pw_close := λ _, answer faults "close" ()
|}.

(** Nothing fails. *)
Definition healthy : Playwright nat := library ∅.

(** The method [bad] raises [e]. *)
Definition failing (bad : string) (e : error) : Playwright nat :=
  library {[bad := e]}.

(** A process started with no argument, an empty environment and an
    empty working directory. *)
Definition fresh : proc nat := Proc ["verify_transcription.py"] ∅ ∅ 0.

(** The same script started with a flag, a variable in its environment
    and a file in its directory. *)
Definition decorated : proc nat :=
  Proc ["verify_transcription.py"; "--headed"] {["HEADLESS" := "0"]}
    {["notes.txt" := []]} 0.

(** The run of the script from [fresh] against the library in which
    [bad] raises [e]. *)
Definition run_failing (bad : string) (e : error) : @completed nat :=
  python (@script nat (failing bad e)) fresh.

Definition run_healthy : @completed nat :=
  python (@script nat healthy) fresh.

(** A second healthy run, on what the first left. *)
Definition run_again : @completed nat :=
  python (@script nat healthy) (final run_healthy).

(** No button on the page, and a teardown that fails as well. *)
Definition run_no_button_bad_teardown : @completed nat :=
  python (@script nat (library {[ "click" := ElementNotFoundError;
                                  "__exit__" := OtherError "Error" ]}))
    fresh.

End Stub.

(** A library whose calls on a page wait for their element, as those of
    Playwright do.  Its state is the page to come: one entry per tick,
    with the selectors that match an element at that moment.  A call waits
    until its selector matches, for [patience] ticks at most, and raises
    [TimeoutError] then. *)
Module AutoWait.

Definition patience : nat := 3.

Fixpoint await (selector : string) (ticks : nat) (page : list (list string))
    : outcome () * list (list string) :=
  match ticks, page with
  | S n, now :: later =>
      if decide (selector ∈ now) then (Returned (), page)
      else await selector n later
  | _, _ => (Raised (Exn TimeoutError), page)
  end.

Definition library : Playwright (list (list string)) := {|
  pw_enter := λ l, (Returned 1, l);
  pw_exit := λ _ l, (Returned (), l);
  pw_launch := λ _ l, (Returned 2, l);
  pw_new_page := λ _ l, (Returned 3, l);
  pw_goto := λ _ _ l, (Returned (), l);
  pw_click := λ _ selector, await selector patience;
  pw_wait_for_selector := λ _ selector, await selector patience;
  pw_screenshot := λ _ _ l, (Returned (Stub.png 0), l);
  pw_close := λ _ l, (Returned (), l)
|}.

(** A page that shows its button one tick after it is loaded, and fills
    its text area one tick after that. *)
Definition late_button : proc (list (list string)) :=
  Proc ["verify_transcription.py"] ∅ ∅
    [ []; ["button"]; ["button"; "textarea:not(:empty)"] ].

(** A page that never shows a button. *)
Definition no_button : proc (list (list string)) :=
  Proc ["verify_transcription.py"] ∅ ∅ [ []; []; []; []; [] ].

End AutoWait.

(** ** Case analysis on what the library answers *)

(** The script is a straight line of calls: a property of its runs is
    proved by asking, call after call, whether the library returned or
    raised, and reading the trace that results. *)

Ltac open_script :=
  unfold python, script, with_sync_playwright, run, screenshot, close,
    wait_for_selector, click, goto, new_page, chromium_launch, write_file,
    invoke, mbind, M_mbind, M_bind, mret, M_mret, M_ret in *.

Ltac ask :=
  match goal with
  | |- context [match ?x with _ => _ end] =>
      lazymatch type of x with
      | (outcome _ * _)%type => destruct x as [[?|?] ?] eqn:?
      end
  end.

Ltac answers :=
  repeat (ask; simpl);
  repeat match goal with u : () |- _ => destruct u end.

Ltac trace_facts :=
  unfold exit_status, all_returned, returned_from, methods, method, steps,
    calls in *;
  simpl in *.

(** Which event of a known trace a hypothesis [ev ∈ t] speaks of. *)
Ltac which_event := decompose_list_elem_of; simplify_eq/=.

Ltac use_all_returned :=
  repeat match goal with
  | H : Forall _ (_ :: _) |- _ => inversion H; clear H; simplify_eq/=
  end.

(** Membership in a written-out list, and its decision for strings. *)
Ltac listed :=
  solve [repeat first [apply list_elem_of_here | apply list_elem_of_further]].

(** The event of a written-out trace that a goal [∃ ev, ev ∈ t ∧ _]
    asks for. *)
Ltac find_event :=
  match goal with
  | |- ∃ ev, ev ∈ ?t ∧ _ =>
      let rec try_from l :=
        lazymatch l with
        | ?x :: ?l' => first [ exists x; split; [listed | done] | try_from l' ]
        end in
      try_from t
  end.

Ltac decided := apply (bool_decide_unpack _); vm_compute; exact I.

Ltac refuted H :=
  apply (bool_decide_pack _) in H; vm_compute in H; exact (match H with end).

Ltac pick_prefix :=
  first [ by exists 0 | by exists 1 | by exists 2 | by exists 3
        | by exists 4 | by exists 5 | by exists 6 | by exists 7 ].

Ltac by_position i :=
  repeat (destruct i as [|i]; simplify_eq/=; try done; try lia).

(** A written-out trace is what the library performed, by the answers
    recorded in the context. *)
Ltac performs :=
  repeat first
    [ apply performed_nil
    | eapply performed_cons;
      [ simpl;
        match goal with H : ?f = _ |- context [?f] => rewrite H end;
        reflexivity
      | ] ].

Ltac split_before_last_two :=
  match goal with
  | |- ∃ pre x, ?t = pre ++ [_; Event _ x] ∧ _ =>
      exists (take (length t - 2) t); eexists; split; [reflexivity | simpl]
  end.

(** ** Exceptions *)

Lemma chain_self (e : exn) : e ∈ chain e.
Proof. destruct e; simpl; left. Qed.

Lemma chain_chained_to (e' e : exn) : e ∈ chain (chained_to e' e).
Proof.
  induction e' as [k | k c IH]; simpl.
  - right. apply chain_self.
  - by right.
Qed.

Lemma chain_set_context (e' e : exn) : e ∈ chain (set_context e' e).
Proof.
  unfold set_context. destruct (decide (e ∈ chain e')); [done |].
  apply chain_chained_to.
Qed.

(** The exception raised keeps its class, and is not its own context. *)
Lemma kind_of_set_context (e' e : exn) : kind_of (set_context e' e) = kind_of e'.
Proof.
  unfold set_context. destruct (decide (e ∈ chain e')); [done |].
  by destruct e'.
Qed.

Lemma set_context_self (e : exn) : set_context e e = e.
Proof.
  unfold set_context. destruct (decide (e ∈ chain e)) as [| []]; [done |].
  apply chain_self.
Qed.

(** The context an exception has is kept. *)
Lemma chain_set_context_own (e' e x : exn) :
  x ∈ chain e' → kind_of x ∈ kind_of <$> chain (set_context e' e).
Proof.
  unfold set_context. destruct (decide (e ∈ chain e')).
  - apply list_elem_of_fmap_2.
  - induction e' as [k | k c IH]; simpl; intros Hx.
    + apply list_elem_of_singleton in Hx as ->. left.
    + apply elem_of_cons in Hx as [-> | Hx]; [left |].
      right. apply IH; [| done]. intros Hin. apply n. simpl. by right.
Qed.

#[local] Hint Resolve chain_self chain_set_context : core.

(** ** Runs of the stub libraries *)

Example stub_run_healthy :
  trace Stub.run_healthy =
  [ Event Enter None; Event (Launch 1) None; Event (NewPage 2) None;
    Event (Goto 3 "http://localhost:5173/") None;
    Event (Click 3 "button") None;
    Event (WaitForSelector 3 "textarea:not(:empty)") None;
    Event (Screenshot 3 screenshot_path) None;
    Event (Close 2) None; Event (Exit None) None ].
Proof. vm_compute. reflexivity. Qed.

Example stub_run_healthy_file :
  fs (final Stub.run_healthy) !! screenshot_path
  = Some (Stub.png 0).
Proof. vm_compute. reflexivity. Qed.

Example stub_run_no_button :
  trace (Stub.run_failing "click" ElementNotFoundError) =
  [ Event Enter None; Event (Launch 1) None; Event (NewPage 2) None;
    Event (Goto 3 "http://localhost:5173/") None;
    Event (Click 3 "button") (Some (Exn ElementNotFoundError));
    Event (Exit (Some (Exn ElementNotFoundError))) None ].
Proof. vm_compute. reflexivity. Qed.

(** The second healthy run replaces the image of the first. *)
Example stub_run_again_file :
  fs (final Stub.run_healthy) = {[screenshot_path := Stub.png 0]} ∧
  fs (final Stub.run_again) = {[screenshot_path := Stub.png 1]} ∧
  Stub.png 0 ≠ Stub.png 1.
Proof. repeat split; [vm_compute; reflexivity .. | discriminate]. Qed.

(** Both exceptions are in the traceback: the one of the teardown, and
    the one of the click as its context. *)
Example stub_run_no_button_bad_teardown :
  uncaught Stub.run_no_button_bad_teardown
  = Some (ExnDuring (OtherError "Error") (Exn ElementNotFoundError)).
Proof. vm_compute. reflexivity. Qed.

(** ** Properties of [run] and of the script *)

Section Properties.
Context {L : Type} `{!Playwright L}.

(** *** Helper facts *)

(** What the [with] statement guarantees, whatever its body: once
    [__enter__] has returned, the last call is [__exit__], and it is given
    the exception of the body. *)
Lemma with_sync_playwright_exits {A} (body : handle → M L A) (s : proc L) :
  let t := trace (python (with_sync_playwright body) s) in
  head t = Some (Event Enter None) →
  ∃ v s1 x,
    t = Event Enter None :: (body v s1).2
          ++ [Event (Exit (raised (body v s1).1.1)) x].
Proof.
  unfold python, with_sync_playwright, invoke.
  destruct (pw_enter (lib s)) as [[v|e] l]; simpl; [intros _ | done].
  exists v, (Proc (argv s) (environ s) (fs s) l).
  destruct (body v _) as [[[a|e] s2] t2]; simpl.
  - destruct (pw_exit None (lib s2)) as [r l']; simpl. by exists (raised r).
  - destruct (pw_exit (Some e) (lib s2)) as [[[]|e'] l']; simpl; eauto.
Qed.

(** The browser operations of a run are an initial segment of the seven
    calls of [run]. *)
Lemma steps_prefix (s : proc L) :
  ∃ n, signature <$> steps (trace (python script s)) = take n run_steps.
Proof.
  open_script. answers; trace_facts; pick_prefix.
Qed.

(** The only file a run touches is the screenshot. *)
Lemma script_fs (s : proc L) :
  fs (final (python script s)) = fs s ∨
  ∃ data, fs (final (python script s)) = <[screenshot_path := data]> (fs s).
Proof.
  open_script. answers; eauto.
Qed.

(** A run that ends without an uncaught exception has written it. *)
Lemma script_success_fs (s : proc L) :
  exit_status (python script s) = 0%Z →
  ∃ data, fs (final (python script s)) = <[screenshot_path := data]> (fs s).
Proof.
  open_script. answers; trace_facts; intros; simplify_eq; eauto.
Qed.

(** A run that ends without an uncaught exception is one in which every
    call returned, and its file holds the image of its own screenshot. *)
Lemma script_success_returns (s : proc L) :
  exit_status (python script s) = 0%Z →
  ∃ image,
    script_returns (lib s) image (lib (final (python script s))) ∧
    fs (final (python script s)) = <[screenshot_path := image]> (fs s).
Proof.
  open_script. answers; trace_facts; intros; simplify_eq.
  eexists. split; [| done].
  do 5 eexists. split; [eassumption |]. split; [| eassumption].
  do 6 eexists. repeat split; eassumption.
Qed.

(** The library decides the image: from one state, one image. *)
Lemma script_returns_unique (l : L) (image1 image2 : bytes) (l1 l2 : L) :
  script_returns l image1 l1 → script_returns l image2 l2 →
  image1 = image2 ∧ l1 = l2.
Proof.
  intros (? & ? & ? & ? & ? & ? & (? & ? & ? & ? & ? & ? & ?) & ?).
  intros (? & ? & ? & ? & ? & ? & (? & ? & ? & ? & ? & ? & ?) & ?).
  destruct_and!. repeat (simplify_eq; try done).
  split; congruence.
Qed.

(** A run that ends without an uncaught exception made the seven calls
    of [run]. *)
Lemma script_success_steps (s : proc L) :
  exit_status (python script s) = 0%Z →
  signature <$> steps (trace (python script s)) = run_steps.
Proof.
  open_script. answers; trace_facts; intros; by simplify_eq.
Qed.

(** The calls depend on the state of the library alone. *)
Lemma script_trace_lib (s1 s2 : proc L) :
  lib s1 = lib s2 →
  trace (python script s1) = trace (python script s2) ∧
  uncaught (python script s1) = uncaught (python script s2).
Proof.
  destruct s1, s2; simpl; intros ->. open_script. simpl. answers; done.
Qed.

(** *** The claims *)

(** C2.  [run] executes the seven operations launch, new_page, goto,
    click, wait_for_selector, screenshot, close in this order.  The calls
    of any run of it are an initial segment of that sequence (nothing
    skipped, nothing reordered), and they are calls the library performed:
    the first in the state the library was in, each of the others in the
    state the call before it left, so that a call starts when the one
    before it is complete.  A call is made only once every call before it
    has returned without raising.  And [run] returns exactly when the
    seven calls all return, each on the object and in the state the calls
    before it gave: the calls are then the seven, the library is left as
    close left it, and the image is in the file. *)
Theorem run_sequential (playwright : handle) (s : proc L) :
  let t := (run playwright s).2 in
  let r := (run playwright s).1.1 in
  let s' := (run playwright s).1.2 in
  (∃ n, signature <$> calls t = take n run_steps) ∧
  (∀ i ev, t !! i = Some ev → S i < length t → ev_raised ev = None) ∧
  (all_returned t ↔ r = Returned ()) ∧
  (all_returned t → signature <$> calls t = run_steps) ∧
  performed (lib s) t (lib s') ∧
  (r = Returned () ↔
   ∃ browser page image,
     run_returns playwright (lib s) browser page image (lib s') ∧
     calls t = session playwright browser page ∧
     fs s' = <[screenshot_path := image]> (fs s)).
Proof.
  open_script. simpl. answers; trace_facts.
  all: split; [ pick_prefix |].
  all: split; [ intros i ev Hi Hlt; by_position i |].
  all: split;
    [ split; [ intros Hall; by use_all_returned
             | intros; simplify_eq; repeat constructor ] |].
  all: split; [ intros Hall; by use_all_returned |].
  all: split; [ performs |].
  all: split;
    [ intros Hr; simplify_eq; do 3 eexists;
      (split; [do 6 eexists; repeat split; eassumption | done])
    | intros (b & p & d & (? & ? & ? & ? & ? & ? & Hrun) & _);
      try done; exfalso; destruct_and!; congruence ].
Qed.

(** C3.  In a run in which every call returns (the seven steps of [run],
    made between the entry and the exit of the [sync_playwright()] context,
    the exit being the rest of the release of resources), the calls of
    [run] are the seven, the image the library returned for the screenshot
    is in the file at the fixed path, and the interpreter exits with
    status 0. *)
Theorem healthy_run_writes_screenshot (s : proc L) :
  let r := python script s in
  all_returned (trace r) →
  exit_status r = 0%Z ∧
  signature <$> steps (trace r) = run_steps ∧
  ∃ page l data l',
    pw_screenshot page screenshot_path l = (Returned data, l') ∧
    fs (final r) !! screenshot_path = Some data.
Proof.
  cbv zeta. open_script. answers; trace_facts; intros Hall; use_all_returned.
  repeat split; try done.
  do 4 eexists. split; [eassumption |]. by rewrite lookup_insert_eq.
Qed.

(** C4.  When one of the calls of [run] raises [e], whatever its class:
    the interpreter exits with a non-zero status, on an uncaught
    exception whose traceback holds [e]; the only call made after the
    failing one is the [__exit__] of the context, so no later step is
    started; and no method is called twice in the run, so nothing is
    retried. *)
Theorem failure_is_fatal (s : proc L) (ev : event) (e : exn) :
  let r := python script s in
  ev ∈ trace r → is_protocol (ev_call ev) = false → ev_raised ev = Some e →
  exit_status r ≠ 0%Z ∧
  (∃ u, uncaught r = Some u ∧ e ∈ chain u) ∧
  (∃ pre x, trace r = pre ++ [ev; Event (Exit (Some e)) x] ∧
            all_returned pre) ∧
  NoDup (methods (trace r)).
Proof.
  cbv zeta. open_script. answers; trace_facts.
  all: intros Hin Hstep Hraised; which_event.
  all: split; [done |].
  all: split; [eexists; split; [done | auto] |].
  all: split; [split_before_last_two; repeat constructor | decided].
Qed.

(** C5, amended.  Whether a page without a button makes the click fail
    is for the library to say; the script has no check of its own.  When
    the click raises (the library gave up on finding an element for the
    selector, or any other failure of the click), the interpreter exits
    with a non-zero status on an uncaught exception whose traceback holds
    the exception of the click, and [wait_for_selector] is never
    called. *)
Theorem click_failure_stops_before_wait (s : proc L) (page : handle)
    (selector : string) (e : exn) :
  let r := python script s in
  Event (Click page selector) (Some e) ∈ trace r →
  exit_status r ≠ 0%Z ∧
  (∃ u, uncaught r = Some u ∧ e ∈ chain u) ∧
  "wait_for_selector" ∉ methods (trace r).
Proof.
  cbv zeta. open_script. answers; trace_facts.
  all: intros Hin; which_event.
  all: split; [done |].
  all: split; [eexists; split; [done | auto] | decided].
Qed.

(** C6.  When [wait_for_selector] raises (the time-out of the wait), the
    interpreter exits with a non-zero status on an uncaught exception
    whose traceback holds that exception, [screenshot] is never called,
    and the files are as they were before the run. *)
Theorem wait_failure_skips_screenshot (s : proc L) (page : handle)
    (selector : string) (e : exn) :
  let r := python script s in
  Event (WaitForSelector page selector) (Some e) ∈ trace r →
  exit_status r ≠ 0%Z ∧
  (∃ u, uncaught r = Some u ∧ e ∈ chain u) ∧
  ("screenshot" ∉ methods (trace r)) ∧
  fs (final r) = fs s.
Proof.
  cbv zeta. open_script. answers; trace_facts.
  all: intros Hin; which_event.
  all: split; [done |].
  all: split; [eexists; split; [done | auto] |].
  all: split; [decided | done].
Qed.

(** C7.  Files are named by their path relative to the working
    directory.  A run leaves every file other than the one at the fixed
    path as it was, and creates no other.  Of two runs, the second started
    on the files the first left, that both end without an uncaught
    exception: the first leaves, at the fixed path, the image the library
    returned for its screenshot; the second leaves there the image the
    library returned for the screenshot of the second run, in place of the
    first, and the same set of files as the first, the files there were
    before and the one screenshot. *)
Theorem screenshot_is_the_only_output (s s' : proc L) :
  let r1 := python script s in
  let r2 := python script s' in
  (∀ p, p ≠ screenshot_path → fs (final r1) !! p = fs s !! p) ∧
  (dom (fs (final r1)) ⊆ {[screenshot_path]} ∪ dom (fs s)) ∧
  (fs s' = fs (final r1) →
   exit_status r1 = 0%Z → exit_status r2 = 0%Z →
   dom (fs (final r2)) = dom (fs (final r1)) ∧
   dom (fs (final r2)) = {[screenshot_path]} ∪ dom (fs s) ∧
   ∃ image1 image2,
     script_returns (lib s) image1 (lib (final r1)) ∧
     script_returns (lib s') image2 (lib (final r2)) ∧
     fs (final r1) = <[screenshot_path := image1]> (fs s) ∧
     fs (final r2) = <[screenshot_path := image2]> (fs s) ∧
     fs (final r2) !! screenshot_path = Some image2).
Proof.
  intros r1 r2. subst r1 r2. split; [| split].
  - intros p Hp. destruct (script_fs s) as [-> | [d ->]]; [done |].
    by rewrite lookup_insert_ne.
  - destruct (script_fs s) as [-> | [d ->]].
    + apply union_subseteq_r.
    + by rewrite dom_insert_L.
  - intros Hfs Hok1 Hok2.
    destruct (script_success_returns s Hok1) as (d1 & Hrun1 & Hd1).
    destruct (script_success_returns s' Hok2) as (d2 & Hrun2 & Hd2).
    assert (fs (final (python script s')) = <[screenshot_path := d2]> (fs s))
      as Hd by (by rewrite Hd2, Hfs, Hd1, insert_insert_eq).
    split; [| split].
    + by rewrite Hd, Hd1, !dom_insert_L.
    + by rewrite Hd, dom_insert_L.
    + exists d1, d2. repeat split; try done.
      by rewrite Hd, lookup_insert_eq.
Qed.

(** C9.  The script reads neither its command line nor its environment,
    and the URL, the selectors and the path it passes are literals.  The
    browser operations of any run are an initial segment of one fixed
    sequence of calls, arguments included; so two runs, whatever their
    command lines, environments and files, make the same call with the
    same arguments at every position both reach; two runs that end
    without an uncaught exception make the same calls with the same
    arguments throughout; and so do, whether they fail or not, two runs in
    which the library answers alike (it starts in the same state). *)
Theorem calls_are_fixed (s1 s2 : proc L) :
  let r1 := python script s1 in
  let r2 := python script s2 in
  (∃ n, signature <$> steps (trace r1) =
        take n [ ("launch", []);
                 ("new_page", []);
                 ("goto", ["http://localhost:5173/"]);
                 ("click", ["button"]);
                 ("wait_for_selector", ["textarea:not(:empty)"]);
                 ("screenshot",
                  ["jules-scratch/verification/verification.png"]);
                 ("close", []) ]) ∧
  (∀ i c1 c2, steps (trace r1) !! i = Some c1 →
              steps (trace r2) !! i = Some c2 →
              signature c1 = signature c2) ∧
  (exit_status r1 = 0%Z → exit_status r2 = 0%Z →
   signature <$> steps (trace r1) = signature <$> steps (trace r2)) ∧
  (lib s1 = lib s2 →
   trace r1 = trace r2 ∧ exit_status r1 = exit_status r2).
Proof.
  intros r1 r2. subst r1 r2. split; [apply steps_prefix |]. split.
  - intros i c1 c2 H1 H2.
    destruct (steps_prefix s1) as [n1 E1], (steps_prefix s2) as [n2 E2].
    assert (run_steps !! i = Some (signature c1)) as G1.
    { eapply (lookup_take_Some _ n1). rewrite <-E1, list_lookup_fmap, H1.
      done. }
    assert (run_steps !! i = Some (signature c2)) as G2.
    { eapply (lookup_take_Some _ n2). rewrite <-E2, list_lookup_fmap, H2.
      done. }
    congruence.
  - split; [intros Hok1 Hok2; by rewrite !script_success_steps |].
    intros Hlib. destruct (script_trace_lib s1 s2 Hlib) as [Ht Hu].
    split; [done |]. unfold exit_status. by rewrite Hu.
Qed.

(** C10.  [browser.close()] is called exactly in the runs in which
    new_page, goto, click, wait_for_selector and screenshot were all
    called and returned.  When one of the five raises, close is not
    called, and the [__exit__] of the surrounding context is. *)
Theorem close_iff_all_before_returned (s : proc L) :
  let t := trace (python script s) in
  ("close" ∈ methods t ↔
     ∀ m, m ∈ ["new_page"; "goto"; "click"; "wait_for_selector";
               "screenshot"] → returned_from m t) ∧
  (∀ ev, ev ∈ t →
     method ev ∈ ["new_page"; "goto"; "click"; "wait_for_selector";
                  "screenshot"] →
     ev_raised ev ≠ None →
     ("close" ∉ methods t) ∧ "__exit__" ∈ methods t).
Proof.
  cbv zeta. open_script. answers; trace_facts.
  all: split;
    [ | intros ev Hin Hm Hr; which_event; try done;
        solve [refuted Hm | split; decided] ].
  all: split;
    [ intros Hclose;
      first [ refuted Hclose
            | intros m Hm; which_event; find_event ]
    | intros Hall; first [ decided | exfalso ] ].
  all: match goal with
       | Hall : ∀ m, m ∈ _ → _ |- _ =>
           destruct (Hall "screenshot") as (ev & Hin & Hm & Hr); [listed |]
       end.
  all: by which_event.
Qed.

(** C1, amended.  When a call of [run] raises [e], the
    [__exit__] of the [sync_playwright()] context is called right after
    it, with [e], as the last call of the run and the only call of
    [__exit__]: the library's teardown is reached on every failure path.
    [browser.close()] is not: when the call that raised is not close
    itself, close is never called. *)
Theorem exit_runs_after_every_failure (s : proc L) (ev : event) (e : exn) :
  let t := trace (python script s) in
  ev ∈ t → is_protocol (ev_call ev) = false → ev_raised ev = Some e →
  (∃ pre x, t = pre ++ [ev; Event (Exit (Some e)) x] ∧
            "__exit__" ∉ methods pre) ∧
  (method ev ≠ "close" → "close" ∉ methods t).
Proof.
  cbv zeta. open_script. answers; trace_facts.
  all: intros Hin Hstep Hraised; which_event.
  all: split; [split_before_last_two; decided | try done; intros _; decided].
Qed.

End Properties.

(** ** The properties on runs of the stub libraries *)

(** C1, as stated, fails when the navigation fails: the browser was
    launched, [goto] raised, and [close] was never called. *)
Lemma close_skipped_when_goto_fails :
  trace (Stub.run_failing "goto" NavigationError) =
    [ Event Enter None; Event (Launch 1) None; Event (NewPage 2) None;
      Event (Goto 3 "http://localhost:5173/") (Some (Exn NavigationError));
      Event (Exit (Some (Exn NavigationError))) None ] ∧
  "close" ∉ methods (trace (Stub.run_failing "goto" NavigationError)).
Proof. split; [vm_compute; reflexivity | decided]. Qed.

(** C5, as stated, fails on a page whose button is not there when
    click is called and shows up while click waits for it: click returns,
    [wait_for_selector] is called, and the run ends with status 0. *)
Lemma late_button_reaches_wait :
  let r := python (@script _ AutoWait.library) AutoWait.late_button in
  head (lib AutoWait.late_button) = Some [] ∧
  trace r =
    [ Event Enter None; Event (Launch 1) None; Event (NewPage 2) None;
      Event (Goto 3 "http://localhost:5173/") None;
      Event (Click 3 "button") None;
      Event (WaitForSelector 3 "textarea:not(:empty)") None;
      Event (Screenshot 3 screenshot_path) None;
      Event (Close 2) None; Event (Exit None) None ] ∧
  exit_status r = 0%Z.
Proof. repeat split; vm_compute; reflexivity. Qed.

(** On a page that never shows a button, the click of the same library
    ends in a time-out, after its wait. *)
Example no_button_times_out :
  trace (python (@script _ AutoWait.library) AutoWait.no_button) =
    [ Event Enter None; Event (Launch 1) None; Event (NewPage 2) None;
      Event (Goto 3 "http://localhost:5173/") None;
      Event (Click 3 "button") (Some (Exn TimeoutError));
      Event (Exit (Some (Exn TimeoutError))) None ].
Proof. vm_compute. reflexivity. Qed.

(** The same run: [__exit__] follows the failing [goto], given its
    exception. *)
Lemma exit_runs_after_every_failure_witness :
  let ev := Event (Goto 3 "http://localhost:5173/")
              (Some (Exn NavigationError)) in
  let t := trace (Stub.run_failing "goto" NavigationError) in
  ev ∈ t ∧
  (∃ pre x, t = pre ++ [ev; Event (Exit (Some (Exn NavigationError))) x] ∧
            "__exit__" ∉ methods pre) ∧
  (method ev ≠ "close" → "close" ∉ methods t).
Proof.
  assert (Event (Goto 3 "http://localhost:5173/") (Some (Exn NavigationError))
          ∈ trace (Stub.run_failing "goto" NavigationError)) as Hin
    by (vm_compute; listed).
  exact (conj Hin
    (@exit_runs_after_every_failure nat (Stub.failing "goto" NavigationError)
       Stub.fresh _ _ Hin eq_refl eq_refl)).
Defined.

(** [run] against the healthy library: the seven calls return one
    after the other, and [run] returns. *)
Lemma run_sequential_witness :
  @run_returns nat Stub.healthy 1 (lib Stub.fresh) 2 3 (Stub.png 0) 1 ∧
  (@run nat Stub.healthy 1 Stub.fresh).1.1 = Returned ().
Proof.
  assert (@run_returns nat Stub.healthy 1 (lib Stub.fresh) 2 3 (Stub.png 0) 1)
    as Hrun by (exists 0, 0, 0, 0, 0, 1; repeat split; vm_compute; reflexivity).
  split; [exact Hrun |].
  apply (proj2 (proj2 (proj2 (proj2 (proj2
           (@run_sequential nat Stub.healthy 1 Stub.fresh)))))).
  exists 2, 3, (Stub.png 0).
  split; [exact Hrun | split; vm_compute; reflexivity].
Defined.

(** The healthy run: the screenshot is written, the status is 0. *)
Lemma healthy_run_writes_screenshot_witness :
  all_returned (trace Stub.run_healthy) ∧
  exit_status Stub.run_healthy = 0%Z ∧
  signature <$> steps (trace Stub.run_healthy) = run_steps ∧
  ∃ page l data l',
    @pw_screenshot nat Stub.healthy page screenshot_path l
      = (Returned data, l') ∧
    fs (final Stub.run_healthy) !! screenshot_path = Some data.
Proof.
  assert (all_returned (trace Stub.run_healthy)) as Hall
    by (vm_compute; repeat constructor).
  exact (conj Hall
    (@healthy_run_writes_screenshot nat Stub.healthy Stub.fresh Hall)).
Defined.

(** The capture fails, after six calls that returned. *)
Lemma failure_is_fatal_witness :
  let ev := Event (Screenshot 3 screenshot_path) (Some (Exn CaptureError)) in
  let r := Stub.run_failing "screenshot" CaptureError in
  ev ∈ trace r ∧
  exit_status r ≠ 0%Z ∧
  (∃ u, uncaught r = Some u ∧ Exn CaptureError ∈ chain u) ∧
  (∃ pre x, trace r = pre ++ [ev; Event (Exit (Some (Exn CaptureError))) x] ∧
            all_returned pre) ∧
  NoDup (methods (trace r)).
Proof.
  assert (Event (Screenshot 3 screenshot_path) (Some (Exn CaptureError))
          ∈ trace (Stub.run_failing "screenshot" CaptureError)) as Hin
    by (vm_compute; listed).
  exact (conj Hin
    (@failure_is_fatal nat (Stub.failing "screenshot" CaptureError)
       Stub.fresh _ _ Hin eq_refl eq_refl)).
Defined.

(** No button on the page. *)
Lemma click_failure_stops_before_wait_witness :
  let r := Stub.run_failing "click" ElementNotFoundError in
  Event (Click 3 "button") (Some (Exn ElementNotFoundError)) ∈ trace r ∧
  exit_status r ≠ 0%Z ∧
  (∃ u, uncaught r = Some u ∧ Exn ElementNotFoundError ∈ chain u) ∧
  "wait_for_selector" ∉ methods (trace r).
Proof.
  assert (Event (Click 3 "button") (Some (Exn ElementNotFoundError))
          ∈ trace (Stub.run_failing "click" ElementNotFoundError)) as Hin
    by (vm_compute; listed).
  exact (conj Hin
    (@click_failure_stops_before_wait nat
       (Stub.failing "click" ElementNotFoundError) Stub.fresh _ _ _ Hin)).
Defined.

(** The text area stays empty until the wait times out. *)
Lemma wait_failure_skips_screenshot_witness :
  let r := Stub.run_failing "wait_for_selector" TimeoutError in
  Event (WaitForSelector 3 "textarea:not(:empty)") (Some (Exn TimeoutError))
    ∈ trace r ∧
  exit_status r ≠ 0%Z ∧
  (∃ u, uncaught r = Some u ∧ Exn TimeoutError ∈ chain u) ∧
  ("screenshot" ∉ methods (trace r)) ∧
  fs (final r) = fs Stub.fresh.
Proof.
  assert (Event (WaitForSelector 3 "textarea:not(:empty)")
            (Some (Exn TimeoutError))
          ∈ trace (Stub.run_failing "wait_for_selector" TimeoutError)) as Hin
    by (vm_compute; listed).
  exact (conj Hin
    (@wait_failure_skips_screenshot nat
       (Stub.failing "wait_for_selector" TimeoutError) Stub.fresh _ _ _ Hin)).
Defined.

(** Two healthy runs in a row leave one file. *)
Lemma screenshot_is_the_only_output_witness :
  (exit_status Stub.run_healthy = 0%Z ∧ exit_status Stub.run_again = 0%Z) ∧
  dom (fs (final Stub.run_again)) = dom (fs (final Stub.run_healthy)) ∧
  dom (fs (final Stub.run_again))
    = {[screenshot_path]} ∪ dom (fs Stub.fresh) ∧
  ∃ image1 image2,
    @script_returns nat Stub.healthy (lib Stub.fresh) image1
      (lib (final Stub.run_healthy)) ∧
    @script_returns nat Stub.healthy (lib (final Stub.run_healthy)) image2
      (lib (final Stub.run_again)) ∧
    fs (final Stub.run_healthy) = <[screenshot_path := image1]> (fs Stub.fresh) ∧
    fs (final Stub.run_again) = <[screenshot_path := image2]> (fs Stub.fresh) ∧
    fs (final Stub.run_again) !! screenshot_path = Some image2.
Proof.
  assert (exit_status Stub.run_healthy = 0%Z) as H1 by (vm_compute; reflexivity).
  assert (exit_status Stub.run_again = 0%Z) as H2
    by (vm_compute; reflexivity).
  exact (conj (conj H1 H2)
    (proj2 (proj2 (@screenshot_is_the_only_output nat Stub.healthy
                     Stub.fresh (final Stub.run_healthy)))
       eq_refl H1 H2)).
Defined.

(** A flag, an environment variable and a stray file change nothing. *)
Lemma calls_are_fixed_witness :
  trace (python (@script nat Stub.healthy) Stub.fresh)
    = trace (python (@script nat Stub.healthy) Stub.decorated) ∧
  exit_status (python (@script nat Stub.healthy) Stub.fresh)
    = exit_status (python (@script nat Stub.healthy) Stub.decorated).
Proof.
  exact (proj2 (proj2 (proj2 (@calls_are_fixed nat Stub.healthy Stub.fresh
                                Stub.decorated))) eq_refl).
Defined.

(** After the time-out of the wait: no close, and the exit of the
    context. *)
Lemma close_iff_all_before_returned_witness :
  let t := trace (Stub.run_failing "wait_for_selector" TimeoutError) in
  ("close" ∉ methods t) ∧ "__exit__" ∈ methods t.
Proof.
  refine (proj2 (@close_iff_all_before_returned nat
            (Stub.failing "wait_for_selector" TimeoutError) Stub.fresh)
          (Event (WaitForSelector 3 "textarea:not(:empty)")
             (Some (Exn TimeoutError))) _ _ _).
  - vm_compute; listed.
  - vm_compute; listed.
  - discriminate.
Defined.

(** ** Further properties of the script *)

Section Further.
Context {L : Type} `{!Playwright L}.

(** X1.  When [__enter__] of the context raises, it is the only call of
    the run: no browser is launched and [__exit__] is not called; its
    exception is the uncaught one, the status is non-zero and the files
    are as they were. *)
Theorem enter_failure_is_the_only_call (s : proc L) (e : exn) :
  let r := python script s in
  Event Enter (Some e) ∈ trace r →
  trace r = [Event Enter (Some e)] ∧
  uncaught r = Some e ∧
  exit_status r ≠ 0%Z ∧
  fs (final r) = fs s.
Proof.
  cbv zeta. open_script. answers; trace_facts.
  all: intros Hin; by which_event.
Qed.

(** X2.  The interpreter exits with status 0 exactly when every call of
    the run returned: a failure of [__enter__], of any step or of
    [__exit__] gives a non-zero status, and nothing else does. *)
Theorem exit_status_zero_iff_all_returned (s : proc L) :
  exit_status (python script s) = 0%Z ↔ all_returned (trace (python script s)).
Proof.
  open_script. answers; trace_facts.
  all: split; [ intros; simplify_eq; repeat constructor
              | intros Hall; by use_all_returned ].
Qed.

(** X3.  The screenshot is written by the call itself, not at the end of
    the run: once [screenshot] has returned, the file at the fixed path
    holds the image it returned when the run ends, also when [close] or
    [__exit__] raise after it and the status is non-zero.  When
    [screenshot] has not returned, the files are as they were, a
    screenshot of an earlier run included. *)
Theorem screenshot_is_written_when_taken (s : proc L) :
  let r := python script s in
  (∀ page path, Event (Screenshot page path) None ∈ trace r →
     ∃ l data l',
       pw_screenshot page screenshot_path l = (Returned data, l') ∧
       fs (final r) = <[screenshot_path := data]> (fs s)) ∧
  ((∀ page path, Event (Screenshot page path) None ∉ trace r) →
     fs (final r) = fs s).
Proof.
  cbv zeta. open_script. answers; trace_facts.
  all: split;
    [ intros page path Hin; which_event; eauto
    | intros Hnot; try done ].
  all: exfalso; eapply Hnot; listed.
Qed.

(** X4.  A run works on one session: the browser operations are an
    initial segment of the calls of [run] on one [playwright] object, one
    browser and one page.  These objects are the ones the library
    returned: [launch] is called on the value of [__enter__], [new_page]
    on the browser [launch] returned, and every method of a page on the
    page [new_page] returned. *)
Theorem one_session (s : proc L) :
  let t := steps (trace (python script s)) in
  (∃ playwright browser page, t `prefix_of` session playwright browser page) ∧
  (∀ playwright, Launch playwright ∈ t →
     ∃ l l', pw_enter l = (Returned playwright, l')) ∧
  (∀ browser, NewPage browser ∈ t →
     ∃ playwright l l', pw_launch playwright l = (Returned browser, l')) ∧
  (∀ c page, c ∈ t → page_of c = Some page →
     ∃ browser l l', pw_new_page browser l = (Returned page, l')).
Proof.
  cbv zeta. open_script. answers; trace_facts.
  all: split; [ do 3 eexists; eexists; simpl; reflexivity |].
  all: split; [ intros pw Hin; which_event; eauto |].
  all: split; [ intros b Hin; which_event; eauto |].
  all: intros c p Hin Hp; which_event; eauto.
  Unshelve. all: exact 0.
Qed.

(** X5.  At most two calls of a run raise, and the uncaught exception
    is read off them: none when no call raised; the exception itself when
    one call raised; when two did, the second is the [__exit__] the first
    was handed to and ends the run, and the uncaught exception is of the
    class of the one [__exit__] raised, with the first in its context
    chain. *)
Theorem uncaught_from_trace (s : proc L) :
  let r := python script s in
  length (raised_in (trace r)) ≤ 2 ∧
  match raised_in (trace r) with
  | [] => uncaught r = None
  | [e] => uncaught r = Some e
  | e :: e' :: _ =>
      last (trace r) = Some (Event (Exit (Some e)) (Some e')) ∧
      ∃ u, uncaught r = Some u ∧ kind_of u = kind_of e' ∧ e ∈ chain u
  end.
Proof.
  cbv zeta. open_script. answers; unfold raised_in; simpl.
  all: split; [lia | try done].
  all: split; [done |].
  all: eexists; split; [done |].
  all: split; [apply kind_of_set_context | apply chain_set_context].
Qed.

(** X6.  Nothing is called on the browser or its page after
    [browser.close()]: whether close returns or raises, the one call that
    follows it is the [__exit__] of the context, and it is the last. *)
Theorem nothing_after_close (s : proc L) (i : nat) (browser : handle)
    (x : option exn) :
  let t := trace (python script s) in
  t !! i = Some (Event (Close browser) x) →
  (∃ y, t !! S i = Some (Event (Exit x) y)) ∧ length t = S (S i).
Proof.
  cbv zeta. open_script. answers; trace_facts.
  all: intros Hi; by_position i; eauto.
Qed.

End Further.

(** The driver cannot start. *)
Lemma enter_failure_is_the_only_call_witness :
  let r := Stub.run_failing "__enter__" LaunchError in
  Event Enter (Some (Exn LaunchError)) ∈ trace r ∧
  trace r = [Event Enter (Some (Exn LaunchError))] ∧
  uncaught r = Some (Exn LaunchError) ∧
  exit_status r ≠ 0%Z ∧
  fs (final r) = fs Stub.fresh.
Proof.
  assert (Event Enter (Some (Exn LaunchError))
          ∈ trace (Stub.run_failing "__enter__" LaunchError)) as Hin
    by (vm_compute; listed).
  exact (conj Hin
    (@enter_failure_is_the_only_call nat (Stub.failing "__enter__" LaunchError)
       Stub.fresh _ Hin)).
Defined.

(** [close] fails after the capture: the file is there all the same. *)
Lemma screenshot_is_written_when_taken_witness :
  let r := Stub.run_failing "close" (OtherError "Error") in
  Event (Screenshot 3 screenshot_path) None ∈ trace r ∧
  ∃ l data l',
    @pw_screenshot nat (Stub.failing "close" (OtherError "Error")) 3
      screenshot_path l = (Returned data, l') ∧
    fs (final r) = <[screenshot_path := data]> (fs Stub.fresh).
Proof.
  assert (Event (Screenshot 3 screenshot_path) None
          ∈ trace (Stub.run_failing "close" (OtherError "Error"))) as Hin
    by (vm_compute; listed).
  exact (conj Hin
    (proj1 (@screenshot_is_written_when_taken nat
              (Stub.failing "close" (OtherError "Error")) Stub.fresh)
       _ _ Hin)).
Defined.

(** [close] fails: [__exit__] follows it, with its exception, and ends
    the run. *)
Lemma nothing_after_close_witness :
  let t := trace (Stub.run_failing "close" (OtherError "Error")) in
  t !! 7 = Some (Event (Close 2) (Some (Exn (OtherError "Error")))) ∧
  (∃ y, t !! 8 = Some (Event (Exit (Some (Exn (OtherError "Error")))) y)) ∧
  length t = 9.
Proof.
  assert (trace (Stub.run_failing "close" (OtherError "Error")) !! 7
          = Some (Event (Close 2) (Some (Exn (OtherError "Error"))))) as Hi
    by (vm_compute; reflexivity).
  exact (conj Hi
    (@nothing_after_close nat (Stub.failing "close" (OtherError "Error"))
       Stub.fresh 7 2 _ Hi)).
Defined.
